(** * The collaborative-editing hook [useYjs]: a shallow embedding

    Source: [src/app/editor/[id]/hooks/useYjs.ts].

    The hook wires a Yjs document, a websocket provider, a Monaco model and
    a Monaco binding together, and tears them down again when the active
    file or branch changes.  This development embeds

    - the room name computed in the main effect ([RoomName]),
    - the teardown function [cleanupAll], the body of the main effect and
      the cleanup closure it returns, the asynchronous [initBinding], and
      [updateRemoteCursorDecorations] ([Hook]),

    fixes the notions the specification speaks of ([Spec]) and one
    concrete session ([Scenario]), and then states the properties of the
    specification over the code ([RoomNameProps], [TeardownProps],
    [InitBindingProps], [DecorationProps]).

    Yjs, y-websocket and Monaco are libraries the hook calls; they are
    present as the calls made to them (the [trace] of a world) and as the
    little of their state the hook reads back: the text and the metadata
    map of a document, the disposed flag of a model, the decorations of
    the editor. *)

From Stdlib Require Import NArith ZArith String Ascii List Bool Lia.
From Stdlib Require Import DecimalString DecimalN.
From stdpp Require Import base option list gmap strings.
Import ListNotations.

(** ** JavaScript strings

    A JavaScript string is a sequence of UTF-16 code units; the regular
    expressions of the hook carry no [u] flag, so they match code unit by
    code unit. *)

Module JS.

Abbreviation jschar := N (only parsing).
Abbreviation jsstring := (list N) (only parsing).

(** An ASCII literal as a JavaScript string. *)
Definition lit (s : string) : jsstring :=
  List.map N_of_ascii (list_ascii_of_string s).

(** Truthiness of a string: [s.length > 0]. *)
Definition truthy (s : jsstring) : bool :=
  match s with [] => false | _ :: _ => true end.

(** [`${n}`] for a non-negative integer: its decimal digits. *)
Definition of_number (n : N) : jsstring :=
  lit (NilEmpty.string_of_uint (N.to_uint n)).

(** [s.replace(/<class>/g, r)] for a one-character class [p] and a
    replacement [r] without [$]: every code unit matched by the class is
    replaced by [r], every other one is kept. *)
Fixpoint replace_all (p : jschar -> bool) (r s : jsstring) : jsstring :=
  match s with
  | [] => []
  | c :: s' => (if p c then r else [c]) ++ replace_all p r s'
  end.

(** The class [[\/\\]]. *)
Definition is_separator (c : jschar) : bool :=
  (c =? 47)%N || (c =? 92)%N.

(** The class [\.]. *)
Definition is_dot (c : jschar) : bool := (c =? 46)%N.

(** The class [\s]: ECMAScript WhiteSpace and LineTerminator. *)
Definition is_whitespace (c : jschar) : bool :=
  ((9 <=? c) && (c <=? 13) || (c =? 32) || (c =? 160) || (c =? 5760)
   || (8192 <=? c) && (c <=? 8202) || (c =? 8232) || (c =? 8233)
   || (c =? 8239) || (c =? 8287) || (c =? 12288) || (c =? 65279))%N.

End JS.

(** ** The room name *)

Module RoomName.
Import JS.

(** [activeFile.replace(/[\/\\]/g, "--").replace(/\./g, "-")] *)
Definition safeFile (activeFile : jsstring) : jsstring :=
  replace_all is_dot (lit "-")
    (replace_all is_separator (lit "--") activeFile).

(** [currentBranch.replace(/[\/\\]/g, "--").replace(/\s/g, "%20")] *)
Definition safeBranch (currentBranch : jsstring) : jsstring :=
  replace_all is_whitespace (lit "%20")
    (replace_all is_separator (lit "--") currentBranch).

(** [`${projectId}-${safeBranch}--${safeFile}`] *)
Definition roomName (projectId currentBranch activeFile : jsstring)
  : jsstring :=
  projectId ++ lit "-" ++ safeBranch currentBranch
            ++ lit "--" ++ safeFile activeFile.

(** *** The escaping as the specification words it

    One pass over the name: a path separator becomes ["--"]; in a branch
    name a whitespace character becomes ["%20"]; in a file path a dot
    becomes ["-"]; everything else is kept. *)

Definition escape_branch_char (c : jschar) : jsstring :=
  if is_separator c then lit "--"
  else if is_whitespace c then lit "%20"
  else [c].

Definition escape_file_char (c : jschar) : jsstring :=
  if is_separator c then lit "--"
  else if is_dot c then lit "-"
  else [c].

Definition escape_branch (b : jsstring) : jsstring :=
  flat_map escape_branch_char b.

Definition escape_file (f : jsstring) : jsstring :=
  flat_map escape_file_char f.

Definition roomId (p b f : jsstring) : jsstring :=
  p ++ lit "-" ++ escape_branch b ++ lit "--" ++ escape_file f.

End RoomName.

(** ** The hook *)

Module Hook.
Import JS RoomName.

(** *** Data *)

(** [User]: the signed-in user, as the hook reads it. *)
Record User := {
  username : option jsstring;
  email : option jsstring }.

(** [PresenceUser]: one awareness state, as [onAwarenessChange] builds
    it. *)
Record Cursor := {
  line : option Z;
  column : option Z }.

Record PresenceIdentity := {
  pi_name : option jsstring;
  pi_email : option jsstring;
  pi_color : option jsstring }.

Record PresenceUser := {
  clientId : N;
  user : option PresenceIdentity;
  cursor : option Cursor }.

(** [Monaco.editor.IModelDeltaDecoration], the fields that vary:
    [isWholeLine] is always [false] and the stickiness always
    [NeverGrowsWhenTypingAtEdges]. *)
Record Decoration := {
  range : Z * Z * Z * Z;
  hoverMessage : jsstring;
  inlineClassName : jsstring }.

(** A Monaco text model. *)
Record Model := {
  m_uri : jsstring;
  m_content : jsstring;
  m_disposed : bool }.

(** The Monaco editor, as far as the hook reads it back: the
    decorations it holds, by id. *)
Record Editor := {
  ed_decorations : list (nat * Decoration);
  ed_fresh : nat }.

(** The closure of one run of the main effect (an activation): its
    [mounted] flag, the [activeFile] it captured, its [model], and the
    Yjs document it created: the client id, the text register
    [ydoc.getText("monaco")] and the map [ydoc.getMap("metadata")]. *)
Record Activation := {
  mounted : bool;
  activeFile : jsstring;
  model : option nat;
  clientID : N;
  ytext : jsstring;
  ymap : gmap string bool }.

(** Calls into Yjs, the provider and Monaco.  The objects one
    activation creates (document, provider, binding, the two listeners)
    are named by the number of the activation; a model is named by its
    position in the model registry. *)
Inductive call :=
(* teardown *)
| AwarenessOff (p l : nat)
| CursorDispose (l : nat)
| BindingDestroy (b : nat)
| ProviderDestroy (p : nat)
| YDocDestroy (d : nat)
(* the main effect *)
| NewYDoc (g : nat)
| NewProvider (g : nat) (room : jsstring)
| CreateModel (m : nat) (content uri : jsstring)
| SetModel (m : nat)
| ProviderOnSynced (g : nat)
| ProviderOffSynced (g : nat)
| SetLocalUser (g : nat) (name : jsstring) (mail : option jsstring)
               (color : jsstring)
| AwarenessOn (g : nat)
| OnDidChangeCursorPosition (g : nat)
(* initBinding *)
| ImportYMonaco (g : nat)
| TextInsert (g : nat) (index : nat) (s : jsstring)
| MapSet (g : nat) (key : string) (v : bool)
| NewBinding (g : nat)
| TextObserve (g : nat)
(* decorations *)
| DeltaDecorations (old : list nat) (decs : list Decoration).

#[global] Instance Decoration_eq_dec : EqDecision Decoration.
Proof. solve_decision. Defined.

#[global] Instance call_eq_dec : EqDecision call.
Proof. solve_decision. Defined.

(** What the hook holds between calls: its refs, the React state
    [monaco] and [editor], the [files] object it was handed (and
    mutates), the closures of the activations so far, Monaco's model
    registry, and the calls made so far, oldest first. *)
Record World := {
  decorationsRef : list nat;
  providerRef : option nat;
  ydocRef : option nat;
  bindingRef : option nat;
  modelRef : option nat;
  cursorListenerRef : option nat;
  awarenessListenerRef : option nat;
  monaco : bool;
  editor : option Editor;
  files : gmap jsstring jsstring;
  acts : list Activation;
  models : list Model;
  trace : list call }.

Definition set_decorationsRef (v : list nat) (w : World) : World :=
  {| decorationsRef := v; providerRef := providerRef w;
     ydocRef := ydocRef w; bindingRef := bindingRef w;
     modelRef := modelRef w; cursorListenerRef := cursorListenerRef w;
     awarenessListenerRef := awarenessListenerRef w;
     monaco := monaco w; editor := editor w; files := files w;
     acts := acts w; models := models w; trace := trace w |}.

Definition set_providerRef (v : option nat) (w : World) : World :=
  {| decorationsRef := decorationsRef w; providerRef := v;
     ydocRef := ydocRef w; bindingRef := bindingRef w;
     modelRef := modelRef w; cursorListenerRef := cursorListenerRef w;
     awarenessListenerRef := awarenessListenerRef w;
     monaco := monaco w; editor := editor w; files := files w;
     acts := acts w; models := models w; trace := trace w |}.

Definition set_ydocRef (v : option nat) (w : World) : World :=
  {| decorationsRef := decorationsRef w; providerRef := providerRef w;
     ydocRef := v; bindingRef := bindingRef w;
     modelRef := modelRef w; cursorListenerRef := cursorListenerRef w;
     awarenessListenerRef := awarenessListenerRef w;
     monaco := monaco w; editor := editor w; files := files w;
     acts := acts w; models := models w; trace := trace w |}.

Definition set_bindingRef (v : option nat) (w : World) : World :=
  {| decorationsRef := decorationsRef w; providerRef := providerRef w;
     ydocRef := ydocRef w; bindingRef := v;
     modelRef := modelRef w; cursorListenerRef := cursorListenerRef w;
     awarenessListenerRef := awarenessListenerRef w;
     monaco := monaco w; editor := editor w; files := files w;
     acts := acts w; models := models w; trace := trace w |}.

Definition set_modelRef (v : option nat) (w : World) : World :=
  {| decorationsRef := decorationsRef w; providerRef := providerRef w;
     ydocRef := ydocRef w; bindingRef := bindingRef w;
     modelRef := v; cursorListenerRef := cursorListenerRef w;
     awarenessListenerRef := awarenessListenerRef w;
     monaco := monaco w; editor := editor w; files := files w;
     acts := acts w; models := models w; trace := trace w |}.

Definition set_cursorListenerRef (v : option nat) (w : World) : World :=
  {| decorationsRef := decorationsRef w; providerRef := providerRef w;
     ydocRef := ydocRef w; bindingRef := bindingRef w;
     modelRef := modelRef w; cursorListenerRef := v;
     awarenessListenerRef := awarenessListenerRef w;
     monaco := monaco w; editor := editor w; files := files w;
     acts := acts w; models := models w; trace := trace w |}.

Definition set_awarenessListenerRef (v : option nat) (w : World)
  : World :=
  {| decorationsRef := decorationsRef w; providerRef := providerRef w;
     ydocRef := ydocRef w; bindingRef := bindingRef w;
     modelRef := modelRef w; cursorListenerRef := cursorListenerRef w;
     awarenessListenerRef := v;
     monaco := monaco w; editor := editor w; files := files w;
     acts := acts w; models := models w; trace := trace w |}.

Definition set_editor (v : option Editor) (w : World) : World :=
  {| decorationsRef := decorationsRef w; providerRef := providerRef w;
     ydocRef := ydocRef w; bindingRef := bindingRef w;
     modelRef := modelRef w; cursorListenerRef := cursorListenerRef w;
     awarenessListenerRef := awarenessListenerRef w;
     monaco := monaco w; editor := v; files := files w;
     acts := acts w; models := models w; trace := trace w |}.

Definition set_files (v : gmap jsstring jsstring) (w : World) : World :=
  {| decorationsRef := decorationsRef w; providerRef := providerRef w;
     ydocRef := ydocRef w; bindingRef := bindingRef w;
     modelRef := modelRef w; cursorListenerRef := cursorListenerRef w;
     awarenessListenerRef := awarenessListenerRef w;
     monaco := monaco w; editor := editor w; files := v;
     acts := acts w; models := models w; trace := trace w |}.

Definition set_acts (v : list Activation) (w : World) : World :=
  {| decorationsRef := decorationsRef w; providerRef := providerRef w;
     ydocRef := ydocRef w; bindingRef := bindingRef w;
     modelRef := modelRef w; cursorListenerRef := cursorListenerRef w;
     awarenessListenerRef := awarenessListenerRef w;
     monaco := monaco w; editor := editor w; files := files w;
     acts := v; models := models w; trace := trace w |}.

Definition set_models (v : list Model) (w : World) : World :=
  {| decorationsRef := decorationsRef w; providerRef := providerRef w;
     ydocRef := ydocRef w; bindingRef := bindingRef w;
     modelRef := modelRef w; cursorListenerRef := cursorListenerRef w;
     awarenessListenerRef := awarenessListenerRef w;
     monaco := monaco w; editor := editor w; files := files w;
     acts := acts w; models := v; trace := trace w |}.

Definition log (c : call) (w : World) : World :=
  {| decorationsRef := decorationsRef w; providerRef := providerRef w;
     ydocRef := ydocRef w; bindingRef := bindingRef w;
     modelRef := modelRef w; cursorListenerRef := cursorListenerRef w;
     awarenessListenerRef := awarenessListenerRef w;
     monaco := monaco w; editor := editor w; files := files w;
     acts := acts w; models := models w; trace := trace w ++ [c] |}.

(** Updates of one activation's closure. *)

Definition set_mounted (b : bool) (a : Activation) : Activation :=
  {| mounted := b; activeFile := activeFile a; model := model a;
     clientID := clientID a; ytext := ytext a; ymap := ymap a |}.

Definition set_model (m : option nat) (a : Activation) : Activation :=
  {| mounted := mounted a; activeFile := activeFile a; model := m;
     clientID := clientID a; ytext := ytext a; ymap := ymap a |}.

Definition set_ytext (t : jsstring) (a : Activation) : Activation :=
  {| mounted := mounted a; activeFile := activeFile a; model := model a;
     clientID := clientID a; ytext := t; ymap := ymap a |}.

Definition set_ymap (m : gmap string bool) (a : Activation)
  : Activation :=
  {| mounted := mounted a; activeFile := activeFile a; model := model a;
     clientID := clientID a; ytext := ytext a; ymap := m |}.

Definition upd_act (g : nat) (f : Activation -> Activation) (w : World)
  : World :=
  set_acts (alter f g (acts w)) w.

(** *** Exceptions and state

    A computation runs on a world and either returns or throws; the
    world it leaves behind is kept in both cases. *)

Inductive Res (A : Type) :=
| Ok (a : A)
| Throw (c : call).
Arguments Ok {A} a.
Arguments Throw {A} c.

Definition M (A : Type) : Type := World -> Res A * World.

Definition ret {A} (a : A) : M A := fun w => (Ok a, w).

Definition bind {A B} (m : M A) (k : A -> M B) : M B :=
  fun w =>
    match m w with
    | (Ok a, w') => k a w'
    | (Throw c, w') => (Throw c, w')
    end.

Definition get : M World := fun w => (Ok w, w).

Definition modify (f : World -> World) : M unit := fun w => (Ok tt, f w).

(** [try { m } catch (err) { h err }] *)
Definition try_catch (m : M unit) (h : call -> M unit) : M unit :=
  fun w =>
    match m w with
    | (Ok a, w') => (Ok a, w')
    | (Throw c, w') => h c w'
    end.

(** A call that does not throw. *)
Definition emit (c : call) : M unit := modify (log c).

Definition exec {A} (m : M A) (w : World) : World := snd (m w).
Definition outcome {A} (m : M A) (w : World) : Res A := fst (m w).

Declare Scope hook_scope.
Delimit Scope hook_scope with hook.
Bind Scope hook_scope with M.
Notation "x <- m ;; k" := (bind m (fun x => k))
  (at level 100, m at next level, right associativity) : hook_scope.
Notation "m ;; k" := (bind m (fun _ => k))
  (at level 100, right associativity) : hook_scope.
Local Open Scope hook_scope.

(** *** Reads *)

(** [model.isDisposed()]; a model the registry does not know counts as
    disposed. *)
Definition is_disposed (w : World) (m : nat) : bool :=
  match models w !! m with
  | Some md => m_disposed md
  | None => true
  end.

(** [!mounted || !model || model.isDisposed()], the guard of
    [initBinding]. *)
Definition stale (w : World) (a : Activation) : bool :=
  negb (mounted a)
  || match model a with
     | None => true
     | Some m => is_disposed w m
     end.

(** [monaco.editor.getModel(uri)]: the live model registered under the
    URI, if there is one.  A URI is taken as the string it was parsed
    from. *)
Fixpoint find_model (uri : jsstring) (ms : list Model) (i : nat)
  : option nat :=
  match ms with
  | [] => None
  | md :: ms' =>
      if bool_decide (m_uri md = uri) && negb (m_disposed md)
      then Some i
      else find_model uri ms' (S i)
  end.

Definition getModel (uri : jsstring) (w : World) : option nat :=
  find_model uri (models w) 0.

(** [providerRef.current.awareness.clientID]: the client id of the
    document the provider was created for. *)
Definition clientID_of (w : World) (p : nat) : N :=
  match acts w !! p with
  | Some a => clientID a
  | None => 0%N
  end.

(** *** Yjs and Monaco operations the hook relies on *)

(** [ytext.insert(index, s)]: Yjs walks [index] positions into the text
    (stopping at its end) and puts [s] there. *)
Definition ytext_insert (g index : nat) (s : jsstring) : M unit :=
  emit (TextInsert g index s) ;;
  modify (upd_act g (fun a =>
    set_ytext (take index (ytext a) ++ s ++ drop index (ytext a)) a)).

(** [ymap.set(key, v)] *)
Definition ymap_set (g : nat) (key : string) (v : bool) : M unit :=
  emit (MapSet g key v) ;;
  modify (upd_act g (fun a => set_ymap (<[key := v]> (ymap a)) a)).

(** [editor.deltaDecorations(old, new)]: Monaco removes the decorations
    whose ids are in [old], adds the decorations [new] under fresh ids,
    and returns these ids. *)
Definition deltaDecorations (old : list nat) (new : list Decoration)
    (e : Editor) : list nat * Editor :=
  let ids := seq (ed_fresh e) (length new) in
  (ids,
   {| ed_decorations :=
        List.filter (fun d => negb (bool_decide (fst d ∈ old)))
                    (ed_decorations e)
        ++ combine ids new;
      ed_fresh := ed_fresh e + length new |}).

(** What the environment answers during one run of the main effect:
    [provider.synced], the client id of the new document, and
    [randomColor()]. *)
Record Env := {
  env_synced : bool;
  env_clientID : N;
  env_color : jsstring }.

(** *** [updateRemoteCursorDecorations]

    The style sheet the function also rewrites lives in the DOM and is
    not part of the world. *)

Definition decoration_of (s : PresenceUser) (c : Cursor) : Decoration :=
  let l := default 1%Z (line c) in
  let col := default 1%Z (column c) in
  let shown :=
    match user s with
    | Some u =>
        match pi_name u with
        | Some n => Some n
        | None => pi_email u
        end
    | None => None
    end in
  {| range := (l, col, l, col);
     hoverMessage := lit "**" ++ default (lit "user") shown ++ lit "**";
     inlineClassName := lit "remoteCursor_" ++ of_number (clientId s) |}.

(** One round of [states.forEach((s) => { ... decs.push(...) })]. *)
Definition push_decoration (myClientId : N) (decs : list Decoration)
    (s : PresenceUser) : list Decoration :=
  match cursor s with
  | None => decs
  | Some c =>
      if (clientId s =? myClientId)%N then decs
      else decs ++ [decoration_of s c]
  end.

Definition remote_decorations (myClientId : N)
    (states : list PresenceUser) : list Decoration :=
  fold_left (push_decoration myClientId) states [].

Definition updateRemoteCursorDecorations (states : list PresenceUser)
  : M unit :=
  w <- get ;;
  match providerRef w, editor w, monaco w with
  | Some p, Some e, true =>
      let myClientId := clientID_of w p in
      let decs := remote_decorations myClientId states in
      emit (DeltaDecorations (decorationsRef w) decs) ;;
      let r := deltaDecorations (decorationsRef w) decs e in
      modify (set_editor (Some (snd r))) ;;
      modify (set_decorationsRef (fst r))
  | _, _, _ => ret tt
  end.

Section Code.

(** Which calls throw.  Teardown calls, the import of the binding
    module and the construction of the binding consult it; reads and
    writes of a live Yjs document and Monaco's registry do not
    throw. *)
Variable throws : call -> bool.

Definition invoke (c : call) : M unit :=
  fun w => (if throws c then Throw c else Ok tt, log c w).

(** *** [cleanupAll]

    The [catch] blocks only write to the console. *)
Definition cleanupAll : M unit :=
  w <- get ;;
  match awarenessListenerRef w, providerRef w with
  | Some l, Some p =>
      try_catch
        (invoke (AwarenessOff p l) ;;
         modify (set_awarenessListenerRef None))
        (fun _ => ret tt)
  | _, _ => ret tt
  end ;;
  w <- get ;;
  match cursorListenerRef w with
  | Some l =>
      try_catch
        (invoke (CursorDispose l) ;;
         modify (set_cursorListenerRef None))
        (fun _ => ret tt)
  | None => ret tt
  end ;;
  w <- get ;;
  match bindingRef w with
  | Some b =>
      try_catch
        (invoke (BindingDestroy b) ;;
         modify (set_bindingRef None))
        (fun _ => ret tt)
  | None => ret tt
  end ;;
  w <- get ;;
  match providerRef w with
  | Some p =>
      try_catch
        (invoke (ProviderDestroy p) ;;
         modify (set_providerRef None))
        (fun _ => ret tt)
  | None => ret tt
  end ;;
  w <- get ;;
  match ydocRef w with
  | Some d =>
      try_catch
        (invoke (YDocDestroy d) ;;
         modify (set_ydocRef None))
        (fun _ => ret tt)
  | None => ret tt
  end ;;
  modify (set_modelRef None).

(** *** [initBinding]

    An [async] function: [initBinding_begin] runs up to the [await]
    and tells whether a continuation is pending; [initBinding_resume]
    is the continuation, run when the import has settled ([loaded]
    tells whether it was fulfilled). *)

Definition initBinding_begin (g : nat) : M bool :=
  w <- get ;;
  match acts w !! g with
  | None => ret false
  | Some a =>
      if stale w a then ret false
      else emit (ImportYMonaco g) ;; ret true
  end.

(** The seeding decision, lines 210-228. *)
Definition reconcile (g : nat) (a : Activation) : M unit :=
  w <- get ;;
  let isInitialized := default false (ymap a !! "initialized"%string) in
  let hasContent := truthy (ytext a) in
  if negb isInitialized && negb hasContent then
    let initialContent := default [] (files w !! activeFile a) in
    (if truthy initialContent
     then ytext_insert g 0 initialContent
     else ret tt) ;;
    ymap_set g "initialized" true
  else
    let yjsContent := ytext a in
    if negb (bool_decide (Some yjsContent = files w !! activeFile a))
    then modify (set_files (<[activeFile a := yjsContent]> (files w)))
    else ret tt.

Definition initBinding_resume (g : nat) (loaded : bool) : M unit :=
  if negb loaded then ret tt
  else
    w <- get ;;
    match acts w !! g with
    | None => ret tt
    | Some a =>
        if stale w a then ret tt
        else
          try_catch
            (reconcile g a ;;
             invoke (NewBinding g) ;;
             modify (set_bindingRef (Some g)) ;;
             emit (TextObserve g))
            (fun _ => ret tt)
    end.

(** [onSync], the listener for the provider's first [synced]. *)
Definition onSync (g : nat) : M unit :=
  w <- get ;;
  match acts w !! g with
  | Some a =>
      if mounted a then _ <- initBinding_begin g ;; ret tt else ret tt
  | None => ret tt
  end ;;
  emit (ProviderOffSynced g).

(** *** The main effect

    [effect] is the body of the effect for the given dependencies; it
    returns the activation whose cleanup closure React keeps, or
    nothing when it returned early. *)
Definition effect (file projectId currentBranch : jsstring)
    (usr : option User) (env : Env) : M (option nat) :=
  w <- get ;;
  if negb (truthy file) || negb (monaco w)
     || negb (bool_decide (is_Some (editor w)))
  then ret None
  else
    let g := length (acts w) in
    modify (set_acts (acts w ++
      [ {| mounted := true; activeFile := file; model := None;
           clientID := env_clientID env; ytext := [];
           ymap := ∅ |} ])) ;;
    cleanupAll ;;
    emit (NewYDoc g) ;;
    modify (set_ydocRef (Some g)) ;;
    emit (NewProvider g (roomName projectId currentBranch file)) ;;
    modify (set_providerRef (Some g)) ;;
    let uri := lit "inmemory:///" ++ projectId ++ lit "/"
               ++ currentBranch ++ lit "/" ++ file in
    w1 <- get ;;
    m <- match getModel uri w1 with
         | Some m => ret m
         | None =>
             let content := default [] (files w1 !! file) in
             let m := length (models w1) in
             emit (CreateModel m content uri) ;;
             modify (set_models (models w1 ++
               [ {| m_uri := uri; m_content := content;
                    m_disposed := false |} ])) ;;
             ret m
         end ;;
    modify (upd_act g (set_model (Some m))) ;;
    modify (set_modelRef (Some m)) ;;
    w2 <- get ;;
    (if is_disposed w2 m then ret tt else emit (SetModel m)) ;;
    (if env_synced env
     then _ <- initBinding_begin g ;; ret tt
     else emit (ProviderOnSynced g)) ;;
    match usr with
    | Some u =>
        emit (SetLocalUser g
                (default (default (lit "unknown") (email u))
                         (username u))
                (email u) (env_color env))
    | None => ret tt
    end ;;
    emit (AwarenessOn g) ;;
    modify (set_awarenessListenerRef (Some g)) ;;
    emit (OnDidChangeCursorPosition g) ;;
    modify (set_cursorListenerRef (Some g)) ;;
    ret (Some g).

(** The cleanup closure the effect returns; React runs it before the
    next run of the effect and on unmount. *)
Definition effect_cleanup (g : nat) : M unit :=
  modify (upd_act g (set_mounted false)) ;;
  cleanupAll.

End Code.

End Hook.

(** ** What the specification speaks of *)

Module Spec.
Import JS Hook.

(** The teardown calls [cleanupAll] has to make in a world: one for each
    component whose ref is set, in the order of the source.  The
    awareness listener can be removed only while the provider is
    there. *)
Definition teardown_calls (w : World) : list call :=
  match awarenessListenerRef w, providerRef w with
  | Some l, Some p => [AwarenessOff p l]
  | _, _ => []
  end
  ++ match cursorListenerRef w with
     | Some l => [CursorDispose l]
     | None => []
     end
  ++ match bindingRef w with
     | Some b => [BindingDestroy b]
     | None => []
     end
  ++ match providerRef w with
     | Some p => [ProviderDestroy p]
     | None => []
     end
  ++ match ydocRef w with
     | Some d => [YDocDestroy d]
     | None => []
     end.

Definition is_teardown (c : call) : bool :=
  match c with
  | AwarenessOff _ _ | CursorDispose _ | BindingDestroy _
  | ProviderDestroy _ | YDocDestroy _ => true
  | _ => false
  end.

(** What a ref holds after its teardown block: the block clears it only
    when the call before the assignment returned. *)
Definition after_block (throws : call -> bool) (c : call)
    (r : option nat) : option nat :=
  if throws c then r else None.

(** [builds Q m]: from every world [m] returns a value satisfying [Q],
    and the calls it adds to the trace are no teardown calls. *)
Definition builds {A} (Q : A -> Prop) (m : M A) : Prop :=
  forall w, exists a w' cs,
    m w = (Ok a, w') /\ Q a
    /\ trace w' = trace w ++ cs
    /\ Forall (fun c => is_teardown c = false) cs.

(** The order of teardown the specification gives for the triple of
    activation [g]: binding, awareness, session channel, document. *)
Definition specified_order (g : nat) : list call :=
  [BindingDestroy g; AwarenessOff g g; ProviderDestroy g; YDocDestroy g].

(** All component refs are null. *)
Definition released (w : World) : Prop :=
  awarenessListenerRef w = None /\ cursorListenerRef w = None
  /\ bindingRef w = None /\ providerRef w = None
  /\ ydocRef w = None /\ modelRef w = None.

(** The awareness listener is registered on the provider, so its ref is
    set only while the provider's is. *)
Definition listener_has_provider (w : World) : Prop :=
  is_Some (awarenessListenerRef w) -> is_Some (providerRef w).

(** The text inserted into Yjs documents by a sequence of calls. *)
Definition inserts (cs : list call) : list call :=
  List.filter
    (fun c => match c with TextInsert _ _ _ => true | _ => false end) cs.

(** The text register and the [initialized] flag of an activation's
    document. *)
Definition text_of (w : World) (g : nat) : option jsstring :=
  ytext <$> acts w !! g.

Definition initialized_of (w : World) (g : nat) : option bool :=
  acts w !! g ≫= fun a => ymap a !! "initialized"%string.

(** The provider delivers the room's state into the (still empty)
    document of activation [g]. *)
Definition receive (g : nat) (text : jsstring) (meta : gmap string bool)
    (w : World) : World :=
  upd_act g (fun a => set_ymap meta (set_ytext text a)) w.

(** The decoration an awareness state is shown with, if any: none for
    a state without cursor, none for the local client. *)
Definition shown (myClientId : N) (s : PresenceUser)
  : option Decoration :=
  match cursor s with
  | None => None
  | Some c =>
      if (clientId s =? myClientId)%N then None
      else Some (decoration_of s c)
  end.

(** Every decoration the editor holds is one the hook has put there. *)
Definition hook_owns (w : World) (e : Editor) : Prop :=
  List.map fst (ed_decorations e) = decorationsRef w.

(** The world after the seeding branch of the reconciliation, for
    snapshot content [c]. *)
Definition seeded (g : nat) (c : jsstring) (w : World) : World :=
  upd_act g
    (fun a => set_ymap (<["initialized"%string := true]> (ymap a)) a)
    (log (MapSet g "initialized" true)
       (if truthy c
        then upd_act g (fun a => set_ytext (c ++ ytext a) a)
               (log (TextInsert g 0 c) w)
        else w)).

(** The world after the deferring branch, for file [f] and document
    text [t]. *)
Definition deferred (f t : jsstring) (w : World) : World :=
  if bool_decide (Some t = files w !! f) then w
  else set_files (<[f := t]> (files w)) w.

(** The world after the binding was set up, or failed to be. *)
Definition bound (throws : call -> bool) (g : nat) (w : World) : World :=
  if throws (NewBinding g) then log (NewBinding g) w
  else log (TextObserve g)
         (set_bindingRef (Some g) (log (NewBinding g) w)).

End Spec.

(** ** A session *)

Module Scenario.
Import JS Hook.

Definition no_throw (c : call) : bool := false.

Definition binding_destroy_throws (c : call) : bool :=
  match c with
  | BindingDestroy _ => true
  | _ => false
  end.

Definition file : jsstring := lit "src/index.ts".

(** A client before the first run of the effect: Monaco and the editor
    are there, the snapshot holds ["hello"] for the file. *)
Definition fresh : World :=
  {| decorationsRef := []; providerRef := None; ydocRef := None;
     bindingRef := None; modelRef := None; cursorListenerRef := None;
     awarenessListenerRef := None; monaco := true;
     editor := Some {| ed_decorations := []; ed_fresh := 0 |};
     files := {[ file := lit "hello" ]};
     acts := []; models := []; trace := [] |}.

Definition env0 : Env :=
  {| env_synced := false; env_clientID := 7%N;
     env_color := lit "#3366ff" |}.

(** The effect has run for the file. *)
Definition activating : World :=
  exec (effect no_throw file (lit "p1") (lit "main") None env0) fresh.

(** The provider has synced and the binding module has loaded: the
    triple of activation 0 is active. *)
Definition active : World :=
  exec (initBinding_resume no_throw 0 true) (exec (onSync 0) activating).

(** The provider has synced and the import of the binding module is
    pending. *)
Definition syncing : World := exec (onSync 0) activating.

(** The closure of activation 0 at that point. *)
Definition first_activation : Activation :=
  {| mounted := true; activeFile := file; model := Some 0;
     clientID := 7%N; ytext := []; ymap := ∅ |}.

(** The user switched away while the import was pending: the cleanup
    closure of activation 0 has run. *)
Definition cancelled : World := exec (effect_cleanup no_throw 0) syncing.

(** The same session on a client whose snapshot has nothing for the
    file. *)
Definition syncing_empty : World :=
  exec (onSync 0)
    (exec (effect no_throw file (lit "p1") (lit "main") None env0)
       (set_files ∅ fresh)).

(** The closure of activation 0 once it has seeded the document. *)
Definition seeded_activation : Activation :=
  set_ymap {[ "initialized"%string := true ]}
    (set_ytext (lit "hello") first_activation).

(** A second client, with its own snapshot of the file, at the same
    point of its own session. *)
Definition syncing_second : World :=
  exec (onSync 0)
    (exec (effect no_throw file (lit "p1") (lit "main") None
             {| env_synced := false; env_clientID := 8%N;
                env_color := lit "#ff6633" |})
       (set_files {[ file := lit "hello" ]} fresh)).

Definition second_activation : Activation :=
  {| mounted := true; activeFile := file; model := Some 0;
     clientID := 8%N; ytext := []; ymap := ∅ |}.

(** Awareness states: the local client (id 7) with a cursor, a remote
    client with a cursor, a remote client without one. *)
Definition states0 : list PresenceUser :=
  [ {| clientId := 7%N; user := None;
       cursor := Some {| line := Some 1%Z; column := Some 1%Z |} |};
    {| clientId := 8%N;
       user := Some {| pi_name := Some (lit "ann"); pi_email := None;
                       pi_color := Some (lit "#ff6633") |};
       cursor := Some {| line := Some 3%Z; column := None |} |};
    {| clientId := 9%N; user := None; cursor := None |} ].

Definition editor0 : Editor := {| ed_decorations := []; ed_fresh := 0 |}.

End Scenario.

(** ** The callbacks the effect registers

    Three closures of an activation outlive the run of the effect: the
    observer of the text register, the awareness listener and the cursor
    listener.  The style sheet for remote cursors is the part of
    [updateRemoteCursorDecorations] that writes to the DOM. *)

Module Callbacks.
Import JS Hook.
Local Open Scope hook_scope.

(** [observer], lines 240-243: [files] is an object, hence truthy. *)
Definition observer (g : nat) : M unit :=
  w <- get ;;
  match acts w !! g with
  | None => ret tt
  | Some a =>
      if negb (mounted a) || negb (truthy (activeFile a)) then ret tt
      else modify (set_files (<[activeFile a := ytext a]> (files w)))
  end.

(** One entry of [provider.awareness.getStates()]. *)
Record AwarenessState := {
  aw_user : option PresenceIdentity;
  aw_cursor : option Cursor }.

(** [Array.from(...entries()).map(([clientId, state]) => ({...}))] *)
Definition presence_entry (entry : N * option AwarenessState)
  : PresenceUser :=
  {| clientId := fst entry;
     user := snd entry ≫= aw_user;
     cursor := snd entry ≫= aw_cursor |}.

(** [onAwarenessChange], lines 273-284.  It returns what it hands to
    [setPresence], if anything. *)
Definition onAwarenessChange (g : nat)
    (entries : list (N * option AwarenessState))
  : M (option (list PresenceUser)) :=
  w <- get ;;
  match acts w !! g with
  | None => ret None
  | Some a =>
      if negb (mounted a) then ret None
      else
        let states := List.map presence_entry entries in
        updateRemoteCursorDecorations states ;;
        ret (Some states)
  end.

(** The cursor listener, lines 289-295: the value it writes to the
    [cursor] field of the local awareness state, if any. *)
Definition cursorListener (g : nat) (lineNumber col : Z) (w : World)
  : option Cursor :=
  match acts w !! g with
  | None => None
  | Some a =>
      if negb (mounted a) then None
      else Some {| line := Some lineNumber; column := Some col |}
  end.

(** *** The style sheet, lines 69-78 *)

(** [s.slice(i, j)] for [0 <= i <= j]. *)
Definition slice (i j : nat) (s : jsstring) : jsstring :=
  take (j - i) (drop i s).

(** The value of a hexadecimal digit. *)
Definition hex_value (c : jschar) : option Z :=
  if ((48 <=? c) && (c <=? 57))%N then Some (Z.of_N c - 48)%Z
  else if ((97 <=? c) && (c <=? 102))%N then Some (Z.of_N c - 87)%Z
  else if ((65 <=? c) && (c <=? 70))%N then Some (Z.of_N c - 55)%Z
  else None.

Fixpoint skip_whitespace (s : jsstring) : jsstring :=
  match s with
  | c :: s' => if is_whitespace c then skip_whitespace s' else s
  | [] => []
  end.

(** The value of the longest prefix of hexadecimal digits, reading on
    from [acc]; [seen] tells whether a digit has been read. *)
Fixpoint hex_prefix (s : jsstring) (seen : bool) (acc : Z) : option Z :=
  match s with
  | c :: s' =>
      match hex_value c with
      | Some v => hex_prefix s' true (16 * acc + v)%Z
      | None => if seen then Some acc else None
      end
  | [] => if seen then Some acc else None
  end.

(** [parseInt(s, 16)]: leading white space, a sign and a [0x] prefix are
    skipped, then the longest run of hexadecimal digits is read; without
    a digit the result is [NaN], here [None]. *)
Definition parseInt16 (s : jsstring) : option Z :=
  let s1 := skip_whitespace s in
  let signed :=
    match s1 with
    | 45%N :: r => (true, r)
    | 43%N :: r => (false, r)
    | _ => (false, s1)
    end in
  let s3 :=
    match snd signed with
    | 48%N :: 120%N :: r => r
    | 48%N :: 88%N :: r => r
    | s2 => s2
    end in
  match hex_prefix s3 false 0 with
  | Some n => Some (if fst signed then (- n)%Z else n)
  | None => None
  end.

(** [`${x}`] for the result of [parseInt]. *)
Definition of_parsed (x : option Z) : jsstring :=
  match x with
  | None => lit "NaN"
  | Some n =>
      if (n <? 0)%Z then lit "-" ++ of_number (Z.to_N (- n))
      else of_number (Z.to_N n)
  end.

Definition newline : jsstring := [10%N].

(** The rule for one awareness state. *)
Definition style_rule (s : PresenceUser) : jsstring :=
  match user s with
  | None => []
  | Some u =>
      let color := default (lit "#888") (pi_color u) in
      lit ".monaco-editor .remoteCursor_" ++ of_number (clientId s)
      ++ lit " {" ++ newline
      ++ repeat 32%N 12 ++ lit "background: rgba("
      ++ of_parsed (parseInt16 (slice 1 3 color)) ++ lit ", "
      ++ of_parsed (parseInt16 (slice 3 5 color)) ++ lit ", "
      ++ of_parsed (parseInt16 (slice 5 7 color)) ++ lit ", 0.12);"
      ++ newline
      ++ repeat 32%N 12 ++ lit "border-left: 2px solid " ++ color
      ++ lit ";" ++ newline
      ++ repeat 32%N 10 ++ lit "}"
  end.

(** [parts.join(sep)] *)
Fixpoint join (sep : jsstring) (parts : list jsstring) : jsstring :=
  match parts with
  | [] => []
  | [x] => x
  | x :: rest => x ++ sep ++ join sep rest
  end.

(** What [styleEl.innerHTML] is set to. *)
Definition style_sheet (states : list PresenceUser) : jsstring :=
  join newline (List.map style_rule states).

End Callbacks.

(** ** Reasoning about computations *)

Module Logic.
Import JS Hook.

(** [wp m Q w]: run from [w], [m] returns, and its value and the world
    it leaves satisfy [Q]. *)
Definition wp {A} (m : M A) (Q : A -> World -> Prop) (w : World) : Prop :=
  match m w with
  | (Ok a, w') => Q a w'
  | (Throw _, _) => False
  end.

(** At most the activation [og] is mounted. *)
Definition mounted_only (w : World) (og : option nat) : Prop :=
  forall g a, acts w !! g = Some a -> mounted a = true -> og = Some g.

(** The URI of the model for a file of a branch of a project. *)
Definition model_uri (projectId currentBranch file : jsstring)
  : jsstring :=
  lit "inmemory:///" ++ projectId ++ lit "/"
  ++ currentBranch ++ lit "/" ++ file.

(** A model is live under a URI. *)
Definition live_model (w : World) (uri : jsstring) (m : nat) : Prop :=
  exists md,
    models w !! m = Some md /\ m_uri md = uri /\ m_disposed md = false.

End Logic.

(** * Properties *)

(** ** Strings *)

Module JSProps.
Import JS.

Lemma replace_all_app p r s t :
  replace_all p r (s ++ t) = replace_all p r s ++ replace_all p r t.
Proof.
  induction s as [|c s IH]; simpl; [reflexivity|].
  rewrite IH. now rewrite app_assoc.
Qed.

Lemma lit_inj s t : lit s = lit t -> s = t.
Proof.
  unfold lit. revert t.
  induction s as [|a s IH]; intros [|b t] H; simpl in H;
    try discriminate; [reflexivity|].
  injection H as Hab Hst.
  f_equal; [|now apply IH].
  rewrite <- (ascii_N_embedding a), <- (ascii_N_embedding b).
  now rewrite Hab.
Qed.

(** Two numbers with the same decimal digits are the same number. *)
Lemma of_number_inj n m : of_number n = of_number m -> n = m.
Proof.
  unfold of_number. intros H. apply lit_inj in H.
  assert (Hu : Some (N.to_uint n) = Some (N.to_uint m)).
  { rewrite <- (NilEmpty.usu (N.to_uint n)),
            <- (NilEmpty.usu (N.to_uint m)).
    now rewrite H. }
  injection Hu as Hu.
  rewrite <- (DecimalN.Unsigned.of_to n), <- (DecimalN.Unsigned.of_to m).
  now rewrite Hu.
Qed.

End JSProps.

(** ** The room name *)

Module RoomNameProps.
Import JS RoomName JSProps.

(** The two passes of the source agree with the one pass of the
    specification, because the text the first pass writes (["--"]) is
    not touched by the second. *)

Lemma safeBranch_escape b : safeBranch b = escape_branch b.
Proof.
  unfold safeBranch, escape_branch.
  induction b as [|c b IH]; [reflexivity|].
  cbn [replace_all flat_map]. rewrite replace_all_app, IH. f_equal.
  unfold escape_branch_char.
  destruct (is_separator c) eqn:Hsep; [reflexivity|].
  cbn [replace_all]. now rewrite app_nil_r.
Qed.

Lemma safeFile_escape f : safeFile f = escape_file f.
Proof.
  unfold safeFile, escape_file.
  induction f as [|c f IH]; [reflexivity|].
  cbn [replace_all flat_map]. rewrite replace_all_app, IH. f_equal.
  unfold escape_file_char.
  destruct (is_separator c) eqn:Hsep; [reflexivity|].
  cbn [replace_all]. now rewrite app_nil_r.
Qed.

(** The room of the specification's end-to-end scenario, and a branch
    with a separator and a blank. *)
Example roomName_index_ts :
  roomName (lit "p1") (lit "main") (lit "src/index.ts")
  = lit "p1-main--src--index-ts".
Proof. reflexivity. Qed.

Example roomName_branch_blank :
  roomName (lit "p1") (lit "feat/my branch") (lit "a\b.ts")
  = lit "p1-feat--my%20branch--a--b-ts".
Proof. reflexivity. Qed.

(** C3.  The room name the effect computes is
    [projectId + "-" + escape(branchName) + "--" + escape(filePath)],
    where the escaping replaces every path separator by ["--"], and
    moreover every whitespace character by ["%20"] in a branch name and
    every dot by ["-"] in a file path. *)
Theorem roomName_is_roomId (projectId branchName filePath : jsstring) :
  roomName projectId branchName filePath
  = roomId projectId branchName filePath.
Proof.
  unfold roomName, roomId.
  now rewrite safeBranch_escape, safeFile_escape.
Qed.

(** The room names of one project and one file agree exactly when the
    escaped branch names do. *)
Lemma roomName_branch_cancel p b1 b2 f :
  roomName p b1 f = roomName p b2 f -> safeBranch b1 = safeBranch b2.
Proof.
  unfold roomName. intros H.
  apply app_inv_head in H. apply app_inv_head in H.
  now apply app_inv_tail in H.
Qed.

(** C4, as stated, fails: the branches ["a/b"] and ["a--b"] are
    different, and so are the triples, yet the room names coincide. *)
Lemma roomName_collision :
  (lit "p", lit "a/b", lit "f") <> (lit "p", lit "a--b", lit "f")
  /\ roomName (lit "p") (lit "a/b") (lit "f")
     = roomName (lit "p") (lit "a--b") (lit "f").
Proof. split; [discriminate | reflexivity]. Qed.

(** Collisions are not confined to the branch: a dot and a dash in the
    file path collide, and a dash can move between the project id and
    the branch. *)
Lemma roomName_collision_file :
  roomName (lit "p") (lit "main") (lit "a.b")
  = roomName (lit "p") (lit "main") (lit "a-b").
Proof. reflexivity. Qed.

Lemma roomName_collision_project :
  roomName (lit "a-b") (lit "c") (lit "f")
  = roomName (lit "a") (lit "b-c") (lit "f").
Proof. reflexivity. Qed.

(** C4, amended.  The room name is a function of the triple; for one
    project and one file, two branches get the same room name exactly
    when their escaped names are the same; so ["feat/x"] and ["feat-x"],
    whose escaped names differ, never share a room. *)
Theorem roomName_stable_and_distinct_on_escaped_branch :
  (forall p b f p' b' f',
      (p, b, f) = (p', b', f') -> roomName p b f = roomName p' b' f')
  /\ (forall p b1 b2 f,
         roomName p b1 f = roomName p b2 f
         <-> safeBranch b1 = safeBranch b2)
  /\ (forall p f,
         roomName p (lit "feat/x") f <> roomName p (lit "feat-x") f).
Proof.
  split; [|split].
  - intros p b f p' b' f' H. now inversion H.
  - intros p b1 b2 f. split.
    + apply roomName_branch_cancel.
    + intros H. unfold roomName. now rewrite H.
  - intros p f H. apply roomName_branch_cancel in H. discriminate H.
Qed.

Lemma roomName_stable_and_distinct_on_escaped_branch_witness :
  roomName (lit "p1") (lit "feat/x") (lit "a.ts")
  <> roomName (lit "p1") (lit "feat x") (lit "a.ts").
Proof.
  intros H.
  apply (proj1 (proj1 (proj2
           roomName_stable_and_distinct_on_escaped_branch)
           (lit "p1") (lit "feat/x") (lit "feat x") (lit "a.ts"))) in H.
  vm_compute in H. discriminate H.
Defined.

End RoomNameProps.

(** ** Teardown *)

Module TeardownProps.
Import JS Hook Spec Scenario.

(** [cleanupAll], run to the end. *)
Lemma cleanupAll_run throws w :
  cleanupAll throws w =
  (Ok tt,
   {| decorationsRef := decorationsRef w;
      providerRef :=
        match providerRef w with
        | Some p => after_block throws (ProviderDestroy p) (Some p)
        | None => None
        end;
      ydocRef :=
        match ydocRef w with
        | Some d => after_block throws (YDocDestroy d) (Some d)
        | None => None
        end;
      bindingRef :=
        match bindingRef w with
        | Some b => after_block throws (BindingDestroy b) (Some b)
        | None => None
        end;
      modelRef := None;
      cursorListenerRef :=
        match cursorListenerRef w with
        | Some l => after_block throws (CursorDispose l) (Some l)
        | None => None
        end;
      awarenessListenerRef :=
        match awarenessListenerRef w, providerRef w with
        | Some l, Some p => after_block throws (AwarenessOff p l) (Some l)
        | r, _ => r
        end;
      monaco := monaco w; editor := editor w; files := files w;
      acts := acts w; models := models w;
      trace := trace w ++ teardown_calls w |}).
Proof.
  destruct w as [dr pr yr br mr cr ar mo ed fs ac ms tr].
  unfold cleanupAll, teardown_calls, after_block, bind, get, try_catch,
    invoke, modify, ret, log; cbn.
  destruct ar as [l|], pr as [p|], cr as [c|], br as [b|], yr as [d|];
    cbn;
    repeat match goal with
           | |- context [throws ?c] => destruct (throws c); cbn
           end;
    rewrite <- ?app_assoc; try rewrite app_nil_r; reflexivity.
Qed.

Lemma cleanupAll_acts throws w :
  acts (exec (cleanupAll throws) w) = acts w.
Proof. unfold exec. now rewrite cleanupAll_run. Qed.

Lemma cleanupAll_models throws w :
  models (exec (cleanupAll throws) w) = models w.
Proof. unfold exec. now rewrite cleanupAll_run. Qed.

Lemma cleanupAll_never_throws throws w :
  outcome (cleanupAll throws) w = Ok tt.
Proof. unfold outcome. now rewrite cleanupAll_run. Qed.

(** Every component whose ref is set gets its teardown call, whatever
    the calls before it did. *)
Lemma cleanupAll_trace throws w :
  trace (exec (cleanupAll throws) w) = trace w ++ teardown_calls w.
Proof. unfold exec. now rewrite cleanupAll_run. Qed.

(** When no teardown call throws, every ref is null afterwards. *)
Lemma cleanupAll_releases throws w :
  listener_has_provider w ->
  (forall c, In c (teardown_calls w) -> throws c = false) ->
  released (exec (cleanupAll throws) w).
Proof.
  intros Hwf Hok. unfold exec. rewrite cleanupAll_run.
  unfold released, listener_has_provider, teardown_calls in *; cbn.
  destruct (awarenessListenerRef w) as [l|], (providerRef w) as [p|],
    (cursorListenerRef w) as [c|], (bindingRef w) as [b|],
    (ydocRef w) as [d|];
    unfold after_block;
    rewrite ?Hok by (cbn; tauto);
    repeat split; try reflexivity;
    destruct Hwf as [? Hp]; eauto; discriminate Hp.
Qed.

(** On a world whose refs are all null, [cleanupAll] makes no call and
    changes nothing. *)
Lemma cleanupAll_released throws w :
  released w -> cleanupAll throws w = (Ok tt, w).
Proof.
  intros (Ha & Hc & Hb & Hp & Hy & Hm). rewrite cleanupAll_run.
  unfold teardown_calls.
  destruct w as [dr pr yr br mr cr ar mo ed fs ac ms tr]; cbn in *.
  subst. cbn. now rewrite app_nil_r.
Qed.

(** When the first teardown went through, a second one is a no-op. *)
Lemma cleanupAll_twice throws throws' w :
  listener_has_provider w ->
  (forall c, In c (teardown_calls w) -> throws c = false) ->
  cleanupAll throws' (exec (cleanupAll throws) w)
  = (Ok tt, exec (cleanupAll throws) w).
Proof.
  intros Hwf Hok. apply cleanupAll_released.
  now apply cleanupAll_releases.
Qed.

(** *** Computations that only build *)

Lemma builds_ret {A} (Q : A -> Prop) a : Q a -> builds Q (ret a).
Proof.
  intros HQ w. exists a, w, []. rewrite app_nil_r. now repeat split.
Qed.

Lemma builds_get (Q : World -> Prop) :
  (forall w, Q w) -> builds Q get.
Proof.
  intros HQ w. exists w, w, []. rewrite app_nil_r. now repeat split.
Qed.

Lemma builds_modify f :
  (forall w, trace (f w) = trace w) ->
  builds (fun _ => True) (modify f).
Proof.
  intros Hf w. exists tt, (f w), []. rewrite app_nil_r, Hf.
  now repeat split.
Qed.

Lemma builds_emit c :
  is_teardown c = false -> builds (fun _ => True) (emit c).
Proof.
  intros Hc w. exists tt, (log c w), [c]. repeat split.
  now constructor.
Qed.

Lemma builds_bind {A B} (P : A -> Prop) (Q : B -> Prop) m k :
  builds P m -> (forall a, builds Q (k a)) -> builds Q (bind m k).
Proof.
  intros Hm Hk w.
  destruct (Hm w) as (a & w1 & cs1 & E1 & _ & T1 & F1).
  destruct (Hk a w1) as (b & w2 & cs2 & E2 & HQ & T2 & F2).
  exists b, w2, (cs1 ++ cs2). unfold bind. rewrite E1, E2.
  repeat split; [assumption| |now apply Forall_app].
  now rewrite T2, T1, app_assoc.
Qed.

Ltac builds_step :=
  first
    [ apply builds_ret; first [reflexivity | exact I]
    | refine (builds_ret (fun _ => True) _ I)
    | apply builds_get; intros ?; exact I
    | apply builds_emit; reflexivity
    | apply builds_modify; intros ?; reflexivity
    | eapply builds_bind; [|intros ?]
    | case_match ].

Lemma initBinding_begin_builds g :
  builds (fun _ => True) (initBinding_begin g).
Proof. unfold initBinding_begin. repeat builds_step. Qed.

(** Stepping through the first calls of the effect. *)

Lemma bind_get {B} (k : World -> M B) w : bind get k w = k w w.
Proof. reflexivity. Qed.

Lemma bind_modify {B} f (k : unit -> M B) w :
  bind (modify f) k w = k tt (f w).
Proof. reflexivity. Qed.

Lemma bind_emit {B} c (k : unit -> M B) w :
  bind (emit c) k w = k tt (log c w).
Proof. reflexivity. Qed.

Lemma bind_cleanupAll {B} throws (k : unit -> M B) w :
  bind (cleanupAll throws) k w = k tt (exec (cleanupAll throws) w).
Proof. unfold bind, exec. now rewrite cleanupAll_run. Qed.

(** The calls of the main effect: first the teardown of what was there,
    then only calls that build the new activation. *)
Lemma effect_run throws file projectId branch usr env w :
  match effect throws file projectId branch usr env w with
  | (Ok None, w') => w' = w
  | (Ok (Some g), w') =>
      exists built,
        trace w'
        = trace w ++ teardown_calls w
          ++ NewYDoc g
             :: NewProvider g (RoomName.roomName projectId branch file)
             :: built
        /\ Forall (fun c => is_teardown c = false) built
  | (Throw _, _) => False
  end.
Proof.
  unfold effect. rewrite bind_get.
  destruct (negb (truthy file) || negb (monaco w)
            || negb (bool_decide (is_Some (editor w)))); [reflexivity|].
  rewrite bind_modify, bind_cleanupAll, bind_emit, bind_modify, bind_emit.
  lazymatch goal with
  | |- match bind ?m ?k ?W with _ => _ end =>
      assert (Hb : builds (fun r => r = Some (length (acts w)))
                          (bind m k));
      [|destruct (Hb W) as (a & w' & cs & E & -> & T & F)]
  end.
  { repeat first [apply initBinding_begin_builds | builds_step]. }
  rewrite E. exists cs. split; [|assumption].
  rewrite T. cbn [trace log set_ydocRef]. rewrite cleanupAll_trace.
  cbn [teardown_calls set_acts awarenessListenerRef providerRef
       cursorListenerRef bindingRef ydocRef trace].
  now rewrite <- !app_assoc.
Qed.

(** Switching to another file while the triple of activation 0 is
    active: the five teardown calls, then the calls that build
    activation 1. *)
Example effect_switch_file :
  drop (length (trace active))
    (trace (exec (effect no_throw (lit "README.md") (lit "p1") (lit "main")
                    None env0) active))
  = [AwarenessOff 0 0; CursorDispose 0; BindingDestroy 0;
     ProviderDestroy 0; YDocDestroy 0;
     NewYDoc 1; NewProvider 1 (lit "p1-main--README-md");
     CreateModel 1 [] (lit "inmemory:///p1/main/README.md");
     SetModel 1; ProviderOnSynced 1; AwarenessOn 1;
     OnDidChangeCursorPosition 1].
Proof. vm_compute. reflexivity. Qed.

(** C6, the failing run.  All five components of the active triple get
    their teardown call and [cleanupAll] returns, but the binding,
    whose [destroy] threw, is still in [bindingRef]: the refs are not
    all null. *)
Theorem cleanupAll_keeps_ref_when_destroy_throws :
  outcome (cleanupAll binding_destroy_throws) active = Ok tt
  /\ trace (exec (cleanupAll binding_destroy_throws) active)
     = trace active
       ++ [AwarenessOff 0 0; CursorDispose 0; BindingDestroy 0;
           ProviderDestroy 0; YDocDestroy 0]
  /\ bindingRef (exec (cleanupAll binding_destroy_throws) active) = Some 0
  /\ ~ released (exec (cleanupAll binding_destroy_throws) active).
Proof.
  split; [apply cleanupAll_never_throws|].
  split; [now rewrite cleanupAll_trace|].
  split; [reflexivity|].
  intros (_ & _ & Hb & _). discriminate Hb.
Qed.

(** C7, the failing run.  After a teardown in which the binding's
    [destroy] threw, a second [cleanupAll] calls [destroy] on the same
    binding again and changes the world. *)
Theorem cleanupAll_second_call_destroys_again :
  trace (exec (cleanupAll no_throw)
           (exec (cleanupAll binding_destroy_throws) active))
  = trace (exec (cleanupAll binding_destroy_throws) active)
    ++ [BindingDestroy 0]
  /\ exec (cleanupAll no_throw)
       (exec (cleanupAll binding_destroy_throws) active)
     <> exec (cleanupAll binding_destroy_throws) active.
Proof.
  split; [now rewrite cleanupAll_trace|].
  intros H. apply (f_equal bindingRef) in H. discriminate H.
Qed.

(** C8, as stated, fails: tearing down the active triple removes the
    awareness listener and the cursor listener before it destroys the
    binding, so the calls do not follow the specified order. *)
Lemma cleanupAll_listeners_before_binding :
  trace (exec (cleanupAll no_throw) active)
  = trace active
    ++ [AwarenessOff 0 0; CursorDispose 0; BindingDestroy 0;
        ProviderDestroy 0; YDocDestroy 0]
  /\ ~ specified_order 0
       `sublist_of` [AwarenessOff 0 0; CursorDispose 0; BindingDestroy 0;
                     ProviderDestroy 0; YDocDestroy 0].
Proof.
  split; [now rewrite cleanupAll_trace|].
  unfold specified_order. intros H.
  repeat match goal with
         | H : _ `sublist_of` _ |- _ => inversion H; clear H; subst
         end.
Qed.

(** C8, amended.  [cleanupAll] makes its calls in one fixed order:
    awareness listener, cursor listener, binding, provider, document
    (each only if its ref is set); and the main effect makes all the
    teardown calls for the previous activation before the first call
    that builds the new one. *)
Theorem teardown_order_and_precedence :
  (forall throws w,
      trace (exec (cleanupAll throws) w) = trace w ++ teardown_calls w)
  /\ (forall throws file projectId branch usr env w,
         match outcome (effect throws file projectId branch usr env) w
         with
         | Ok None =>
             exec (effect throws file projectId branch usr env) w = w
         | Ok (Some g) =>
             exists built,
               trace (exec (effect throws file projectId branch usr env)
                        w)
               = trace w ++ teardown_calls w
                 ++ NewYDoc g
                    :: NewProvider g
                         (RoomName.roomName projectId branch file)
                    :: built
               /\ Forall (fun c => is_teardown c = false) built
         | Throw _ => False
         end).
Proof.
  split; [apply cleanupAll_trace|].
  intros throws file projectId branch usr env w.
  unfold outcome, exec.
  generalize (effect_run throws file projectId branch usr env w).
  now destruct (effect throws file projectId branch usr env w)
    as [[[g|]|c] w'].
Qed.

End TeardownProps.

(** ** Reconciliation on first sync *)

Module InitBindingProps.
Import JS Hook Spec Scenario.

Lemma lookup_upd_act g f w a :
  acts w !! g = Some a -> acts (upd_act g f w) !! g = Some (f a).
Proof.
  intros H. unfold upd_act; cbn.
  rewrite list_lookup_alter_eq. now rewrite H.
Qed.

Lemma lookup_upd_act_ne g g' f w :
  g <> g' -> acts (upd_act g f w) !! g' = acts w !! g'.
Proof.
  intros H. unfold upd_act; cbn. now rewrite list_lookup_alter_ne.
Qed.

Lemma truthy_false s : truthy s = false -> s = [].
Proof. now destruct s. Qed.

Lemma inserts_app cs ds : inserts (cs ++ ds) = inserts cs ++ inserts ds.
Proof. unfold inserts. apply List.filter_app. Qed.

Ltac run :=
  cbv beta iota zeta delta
    [bind get modify emit ret try_catch invoke ytext_insert ymap_set
     exec outcome fst snd].

(** *** The continuation, case by case *)

Lemma resume_stale throws g loaded w a :
  acts w !! g = Some a -> stale w a = true ->
  initBinding_resume throws g loaded w = (Ok tt, w).
Proof.
  intros Hg Hs. unfold initBinding_resume.
  destruct loaded; cbn [negb]; [|reflexivity].
  run. now rewrite Hg, Hs.
Qed.

Lemma resume_seed throws g w a :
  acts w !! g = Some a -> stale w a = false ->
  ymap a !! "initialized"%string <> Some true -> ytext a = [] ->
  initBinding_resume throws g true w
  = (Ok tt, bound throws g
              (seeded g (default [] (files w !! activeFile a)) w)).
Proof.
  intros Hg Hs Hi Ht.
  unfold initBinding_resume, reconcile, bound, seeded. cbn [negb]. run.
  rewrite Hg, Hs, Ht.
  assert (Hd : default false (ymap a !! "initialized"%string) = false).
  { destruct (ymap a !! "initialized"%string) as [[|]|]; cbn; congruence. }
  rewrite Hd. cbn [negb andb truthy].
  destruct (truthy (default [] (files w !! activeFile a))); run;
    destruct (throws (NewBinding g)); reflexivity.
Qed.

Lemma resume_defer throws g w a :
  acts w !! g = Some a -> stale w a = false ->
  ymap a !! "initialized"%string = Some true \/ ytext a <> [] ->
  initBinding_resume throws g true w
  = (Ok tt, bound throws g (deferred (activeFile a) (ytext a) w)).
Proof.
  intros Hg Hs Hc.
  unfold initBinding_resume, reconcile, bound, deferred. cbn [negb]. run.
  rewrite Hg, Hs.
  assert (Hd : negb (default false (ymap a !! "initialized"%string))
               && negb (truthy (ytext a)) = false).
  { destruct Hc as [-> | Hc]; [reflexivity|].
    destruct (ytext a); [congruence|]. cbn. apply andb_false_r. }
  rewrite Hd.
  destruct (bool_decide (Some (ytext a) = files w !! activeFile a));
    cbn [negb]; run; destruct (throws (NewBinding g)); reflexivity.
Qed.

(** *** What the three worlds hold *)

Lemma bound_acts throws g w : acts (bound throws g w) = acts w.
Proof. unfold bound. now destruct (throws _). Qed.

Lemma bound_files throws g w : files (bound throws g w) = files w.
Proof. unfold bound. now destruct (throws _). Qed.

Lemma bound_inserts throws g w :
  inserts (trace (bound throws g w)) = inserts (trace w).
Proof.
  unfold bound. destruct (throws _); cbn [trace log set_bindingRef];
    rewrite ?inserts_app; cbn; now rewrite ?app_nil_r.
Qed.

Lemma seeded_text g c w a :
  acts w !! g = Some a -> ytext a = [] ->
  text_of (seeded g c w) g = Some c.
Proof.
  intros Hg Ht. unfold text_of, seeded.
  destruct (truthy c) eqn:Hc;
    unfold upd_act, log, set_acts; cbn [acts];
    rewrite !list_lookup_alter_eq, Hg; cbn.
  - now rewrite Ht, app_nil_r.
  - now rewrite Ht, (truthy_false _ Hc).
Qed.

Lemma seeded_initialized g c w a :
  acts w !! g = Some a -> initialized_of (seeded g c w) g = Some true.
Proof.
  intros Hg. unfold initialized_of, seeded.
  destruct (truthy c);
    unfold upd_act, log, set_acts; cbn [acts];
    rewrite !list_lookup_alter_eq, Hg; cbn; apply lookup_insert_eq.
Qed.

Lemma seeded_files g c w : files (seeded g c w) = files w.
Proof. unfold seeded. now destruct (truthy c). Qed.

Lemma seeded_inserts g c w :
  inserts (trace (seeded g c w))
  = inserts (trace w) ++ (if truthy c then [TextInsert g 0 c] else []).
Proof.
  unfold seeded. destruct (truthy c); cbn [trace log upd_act set_acts];
    rewrite !inserts_app; cbn; now rewrite ?app_nil_r.
Qed.

Lemma deferred_acts f t w : acts (deferred f t w) = acts w.
Proof. unfold deferred. now destruct (bool_decide _). Qed.

Lemma deferred_trace f t w : trace (deferred f t w) = trace w.
Proof. unfold deferred. now destruct (bool_decide _). Qed.

Lemma deferred_files f t w :
  files (deferred f t w) = <[f := t]> (files w).
Proof.
  unfold deferred. destruct (bool_decide_reflect (Some t = files w !! f))
    as [E|_]; [|reflexivity].
  symmetry. now apply insert_id.
Qed.

(** *** The continuation after the cleanup closure has run *)

Lemma resume_unknown throws g loaded w :
  acts w !! g = None -> initBinding_resume throws g loaded w = (Ok tt, w).
Proof.
  intros Hg. unfold initBinding_resume.
  destruct loaded; cbn [negb]; [|reflexivity].
  run. now rewrite Hg.
Qed.

Lemma effect_cleanup_run throws g w :
  effect_cleanup throws g w
  = (Ok tt, exec (cleanupAll throws) (upd_act g (set_mounted false) w)).
Proof.
  unfold effect_cleanup. rewrite TeardownProps.bind_modify.
  unfold exec. now rewrite TeardownProps.cleanupAll_run.
Qed.

Lemma resume_after_cleanup throws throws' g loaded w :
  initBinding_resume throws g loaded (exec (effect_cleanup throws' g) w)
  = (Ok tt, exec (effect_cleanup throws' g) w).
Proof.
  unfold exec. rewrite effect_cleanup_run. cbn [snd].
  destruct (acts w !! g) as [a|] eqn:Hg.
  - apply resume_stale with (a := set_mounted false a); [|reflexivity].
    rewrite TeardownProps.cleanupAll_acts. now apply lookup_upd_act.
  - apply resume_unknown.
    rewrite TeardownProps.cleanupAll_acts. unfold upd_act; cbn.
    rewrite list_lookup_alter_eq. now rewrite Hg.
Qed.

(** *** A replica that has received a room's state *)

Lemma receive_lookup g t m w a :
  acts w !! g = Some a ->
  acts (receive g t m w) !! g = Some (set_ymap m (set_ytext t a)).
Proof.
  intros Hg. unfold receive.
  exact (lookup_upd_act g (fun a => set_ymap m (set_ytext t a)) w a Hg).
Qed.

Lemma receive_stale g t m w a :
  stale (receive g t m w) (set_ymap m (set_ytext t a)) = stale w a.
Proof. reflexivity. Qed.

(** A replica whose document is already initialized keeps its text,
    inserts nothing and stays initialized. *)
Lemma resume_initialized throws g w a :
  acts w !! g = Some a -> stale w a = false ->
  ymap a !! "initialized"%string = Some true ->
  inserts (trace (exec (initBinding_resume throws g true) w))
  = inserts (trace w)
  /\ text_of (exec (initBinding_resume throws g true) w) g
     = Some (ytext a)
  /\ initialized_of (exec (initBinding_resume throws g true) w) g
     = Some true.
Proof.
  intros Hg Hs Hi. unfold exec.
  rewrite (resume_defer throws g w a Hg Hs (or_introl Hi)). cbn [snd].
  unfold text_of, initialized_of.
  rewrite bound_inserts, bound_acts, deferred_trace, deferred_acts, Hg.
  now repeat split.
Qed.

(** The continuation of any activation, however the import went, leaves
    a flag that is set as it is: the only write to the metadata sets it
    to true. *)
Lemma resume_keeps_initialized throws g' loaded w g :
  initialized_of w g = Some true ->
  initialized_of (exec (initBinding_resume throws g' loaded) w) g
  = Some true.
Proof.
  intros Hi. unfold exec.
  destruct loaded; [|exact Hi].
  destruct (acts w !! g') as [a'|] eqn:Hg';
    [|now rewrite resume_unknown].
  destruct (stale w a') eqn:Hs; [now rewrite (resume_stale _ _ _ _ a')|].
  destruct (decide (ymap a' !! "initialized"%string = Some true)) as [Ht|Hf].
  - rewrite (resume_defer throws g' w a' Hg' Hs (or_introl Ht)). cbn [snd].
    unfold initialized_of in *. now rewrite bound_acts, deferred_acts.
  - destruct (ytext a') as [|c t] eqn:Hy.
    + rewrite (resume_seed throws g' w a' Hg' Hs Hf Hy). cbn [snd].
      destruct (decide (g' = g)) as [->|Hne].
      * unfold initialized_of. rewrite bound_acts.
        exact (seeded_initialized g _ w a' Hg').
      * unfold initialized_of in *. rewrite bound_acts. unfold seeded.
        rewrite lookup_upd_act_ne by assumption.
        destruct (truthy _); cbn [acts log]; [|exact Hi].
        now rewrite lookup_upd_act_ne by assumption.
    + assert (Hc : ymap a' !! "initialized"%string = Some true
                   \/ ytext a' <> []) by (right; now rewrite Hy).
      rewrite (resume_defer throws g' w a' Hg' Hs Hc). cbn [snd].
      unfold initialized_of in *. now rewrite bound_acts, deferred_acts.
Qed.

(** C5.  When the activation's [mounted] flag is false or its model is
    disposed by the time the binding module has loaded, the continuation
    of [initBinding] returns at once and leaves the world as it is:
    nothing is inserted, no flag written, [files] untouched, no binding
    made.  The cleanup closure of the activation always brings this
    about. *)
Theorem stale_continuation_does_nothing throws g loaded w :
  (forall a,
      acts w !! g = Some a ->
      mounted a = false
      \/ (exists m, model a = Some m /\ is_disposed w m = true) ->
      initBinding_resume throws g loaded w = (Ok tt, w))
  /\ (forall throws',
         initBinding_resume throws g loaded
           (exec (effect_cleanup throws' g) w)
         = (Ok tt, exec (effect_cleanup throws' g) w)).
Proof.
  split.
  - intros a Hg Hc. apply resume_stale with (a := a); [assumption|].
    unfold stale. destruct Hc as [-> | (m & -> & ->)]; [reflexivity|].
    apply orb_true_r.
  - intros throws'. apply resume_after_cleanup.
Qed.

(** C2.  On the first sync, if [initialized] is unset and the text is
    empty, the text becomes the snapshot's content for the file
    (inserted at position 0), [initialized] becomes true and [files] is
    left alone; otherwise nothing is inserted, the text and the flag
    stay, and [files[activeFile]] is the document's text.  With
    ["hello"] in the snapshot a fresh replica ends with text ["hello"],
    initialized; a second replica that has received this state keeps the
    text ["hello"]. *)
Theorem seed_once throws g w a :
  acts w !! g = Some a -> stale w a = false ->
  let w' := exec (initBinding_resume throws g true) w in
  let content := default [] (files w !! activeFile a) in
  (ymap a !! "initialized"%string <> Some true -> ytext a = [] ->
      inserts (trace w')
      = inserts (trace w)
        ++ (if truthy content then [TextInsert g 0 content] else [])
      /\ text_of w' g = Some content
      /\ initialized_of w' g = Some true
      /\ files w' = files w)
  /\ (ymap a !! "initialized"%string = Some true \/ ytext a <> [] ->
        inserts (trace w') = inserts (trace w)
        /\ text_of w' g = Some (ytext a)
        /\ initialized_of w' g = ymap a !! "initialized"%string
        /\ files w' = <[activeFile a := ytext a]> (files w))
  /\ (ymap a !! "initialized"%string <> Some true -> ytext a = [] ->
      files w !! activeFile a = Some (lit "hello") ->
        text_of w' g = Some (lit "hello")
        /\ initialized_of w' g = Some true
        /\ forall a' throws2 g2 w2 a2,
             acts w' !! g = Some a' ->
             acts w2 !! g2 = Some a2 -> stale w2 a2 = false ->
             text_of
               (exec (initBinding_resume throws2 g2 true)
                  (receive g2 (ytext a') (ymap a') w2)) g2
             = Some (lit "hello")).
Proof.
  intros Hg Hs w' content.
  assert (Hseed :
    ymap a !! "initialized"%string <> Some true -> ytext a = [] ->
    inserts (trace w')
    = inserts (trace w)
      ++ (if truthy content then [TextInsert g 0 content] else [])
    /\ text_of w' g = Some content
    /\ initialized_of w' g = Some true
    /\ files w' = files w).
  { intros Hi Ht. subst w' content. unfold exec.
    rewrite (resume_seed throws g w a Hg Hs Hi Ht). cbn [snd].
    unfold text_of, initialized_of.
    rewrite bound_inserts, bound_acts, bound_files, seeded_inserts,
      seeded_files.
    repeat split.
    - now apply (seeded_text g _ w a).
    - now apply (seeded_initialized g _ w a). }
  split; [exact Hseed|]. split.
  - intros Hc. subst w'. unfold exec.
    rewrite (resume_defer throws g w a Hg Hs Hc). cbn [snd].
    unfold text_of, initialized_of.
    rewrite bound_inserts, bound_acts, bound_files, deferred_trace,
      deferred_acts, deferred_files, Hg.
    now repeat split.
  - intros Hi Ht Hf.
    destruct (Hseed Hi Ht) as (_ & Htext & Hinit & _).
    unfold content in Htext. rewrite Hf in Htext. cbn in Htext.
    split; [exact Htext|]. split; [exact Hinit|].
    intros a' throws2 g2 w2 a2 Hg' Hg2 Hs2.
    unfold text_of in Htext. unfold initialized_of in Hinit.
    rewrite Hg' in Htext, Hinit. cbn in Htext, Hinit.
    injection Htext as Htext.
    destruct (resume_initialized throws2 g2
                (receive g2 (ytext a') (ymap a') w2)
                (set_ymap (ymap a') (set_ytext (ytext a') a2)))
      as (_ & Ht2 & _).
    + now apply receive_lookup.
    + now rewrite receive_stale.
    + exact Hinit.
    + rewrite Ht2. cbn. now rewrite Htext.
Qed.

(** C10.  When the first sync finds [initialized] unset and the text
    empty, and the snapshot has no content for the file (absent or
    empty), nothing is inserted, yet [initialized] is set: the document
    is initialized with empty text.  It stays so: no later continuation
    on this client unsets the flag, and a replica that has received this
    state inserts nothing on its own first sync, whatever its snapshot
    holds, keeps the empty text, and keeps the flag. *)
Theorem empty_snapshot_still_initializes throws g w a :
  acts w !! g = Some a -> stale w a = false ->
  ymap a !! "initialized"%string <> Some true -> ytext a = [] ->
  files w !! activeFile a = None \/ files w !! activeFile a = Some [] ->
  let w' := exec (initBinding_resume throws g true) w in
  inserts (trace w') = inserts (trace w)
  /\ text_of w' g = Some []
  /\ initialized_of w' g = Some true
  /\ (forall throws1 g1 loaded,
         initialized_of (exec (initBinding_resume throws1 g1 loaded) w') g
         = Some true)
  /\ (forall a' throws2 g2 w2 a2,
         acts w' !! g = Some a' ->
         acts w2 !! g2 = Some a2 -> stale w2 a2 = false ->
         let w2' := exec (initBinding_resume throws2 g2 true)
                      (receive g2 (ytext a') (ymap a') w2) in
         inserts (trace w2') = inserts (trace w2)
         /\ text_of w2' g2 = Some []
         /\ initialized_of w2' g2 = Some true).
Proof.
  intros Hg Hs Hi Ht Hf w'.
  assert (Hc : default [] (files w !! activeFile a) = []).
  { now destruct Hf as [-> | ->]. }
  assert (Hw' : w' = bound throws g (seeded g [] w)).
  { subst w'. unfold exec.
    now rewrite (resume_seed throws g w a Hg Hs Hi Ht), Hc. }
  assert (Hins : inserts (trace w') = inserts (trace w)).
  { rewrite Hw', bound_inserts, seeded_inserts. cbn [truthy].
    apply app_nil_r. }
  assert (Htext : text_of w' g = Some []).
  { rewrite Hw'. unfold text_of. rewrite bound_acts.
    exact (seeded_text g [] w a Hg Ht). }
  assert (Hinit : initialized_of w' g = Some true).
  { rewrite Hw'. unfold initialized_of. rewrite bound_acts.
    exact (seeded_initialized g [] w a Hg). }
  clearbody w'.
  split; [exact Hins|]. split; [exact Htext|]. split; [exact Hinit|].
  split.
  { intros throws1 g1 loaded. now apply resume_keeps_initialized. }
  intros a' throws2 g2 w2 a2 Hg' Hg2 Hs2 w2'.
  unfold text_of in Htext. unfold initialized_of in Hinit.
  rewrite Hg' in Htext, Hinit. cbn in Htext, Hinit.
  injection Htext as Htext.
  destruct (resume_initialized throws2 g2
              (receive g2 (ytext a') (ymap a') w2)
              (set_ymap (ymap a') (set_ytext (ytext a') a2)))
    as (Hi2 & Ht2 & Hn2).
  - now apply receive_lookup.
  - now rewrite receive_stale.
  - exact Hinit.
  - subst w2'. rewrite Hi2, Ht2, Hn2. cbn. now rewrite Htext.
Qed.

(** The continuation of the cancelled activation is a no-op. *)
Lemma stale_continuation_does_nothing_witness :
  initBinding_resume no_throw 0 true cancelled = (Ok tt, cancelled).
Proof.
  apply (proj1 (stale_continuation_does_nothing no_throw 0 true cancelled)
           (set_mounted false first_activation)).
  - vm_compute. reflexivity.
  - left. reflexivity.
Defined.

(** The first client seeds ["hello"]; the second, having received that
    state, keeps it. *)
Lemma seed_once_witness :
  text_of active 0 = Some (lit "hello")
  /\ initialized_of active 0 = Some true
  /\ text_of
       (exec (initBinding_resume no_throw 0 true)
          (receive 0 (ytext seeded_activation) (ymap seeded_activation)
             syncing_second)) 0
     = Some (lit "hello").
Proof.
  destruct (seed_once no_throw 0 syncing first_activation)
    as (_ & _ & H); [vm_compute; reflexivity | vm_compute; reflexivity |].
  destruct H as (Ht & Hi & H2);
    [intros H; vm_compute in H; discriminate H
    | reflexivity | vm_compute; reflexivity |].
  split; [exact Ht|]. split; [exact Hi|].
  refine (H2 seeded_activation no_throw 0 syncing_second
            second_activation _ _ _);
    vm_compute; reflexivity.
Defined.

(** A client without content for the file marks the document
    initialized and inserts nothing. *)
Lemma empty_snapshot_still_initializes_witness :
  inserts (trace (exec (initBinding_resume no_throw 0 true)
                    syncing_empty)) = []
  /\ text_of (exec (initBinding_resume no_throw 0 true) syncing_empty) 0
     = Some []
  /\ initialized_of
       (exec (initBinding_resume no_throw 0 true) syncing_empty) 0
     = Some true.
Proof.
  destruct (empty_snapshot_still_initializes no_throw 0 syncing_empty
              first_activation)
    as (Hn & Ht & Hi & _);
    [vm_compute; reflexivity | vm_compute; reflexivity
    | intros H; vm_compute in H; discriminate H
    | reflexivity | left; vm_compute; reflexivity |].
  split; [exact Hn|]. split; [exact Ht | exact Hi].
Defined.

End InitBindingProps.

(** ** Remote cursor decorations *)

Module DecorationProps.
Import JS Hook Spec Scenario JSProps.

(** The loop over the states collects, in order, the decorations of the
    states that are shown. *)
Lemma fold_push_decoration my states acc :
  fold_left (push_decoration my) states acc
  = acc ++ omap (shown my) states.
Proof.
  revert acc.
  induction states as [|s states IH]; intros acc; cbn [fold_left].
  - cbn. now rewrite app_nil_r.
  - rewrite IH.
    change (omap (shown my) (s :: states))
      with (match shown my s with
            | Some d => d :: omap (shown my) states
            | None => omap (shown my) states
            end).
    unfold push_decoration, shown at 2.
    destruct (cursor s) as [c|]; [|reflexivity].
    destruct (clientId s =? my)%N; [reflexivity|].
    now rewrite <- app_assoc.
Qed.

Lemma remote_decorations_shown my states :
  remote_decorations my states = omap (shown my) states.
Proof. apply fold_push_decoration. Qed.

Lemma shown_Some my s d :
  shown my s = Some d
  <-> exists c,
        cursor s = Some c /\ clientId s <> my /\ d = decoration_of s c.
Proof.
  unfold shown. destruct (cursor s) as [c|].
  - destruct (N.eqb_spec (clientId s) my) as [E|E].
    + split; [discriminate|]. intros (c' & _ & Hne & _). contradiction.
    + split.
      * intros [= <-]. now exists c.
      * intros (c' & [= <-] & _ & ->). reflexivity.
  - split; [discriminate|]. intros (c' & Hc & _). discriminate Hc.
Qed.

Lemma elem_of_remote_decorations my states d :
  d ∈ remote_decorations my states
  <-> exists s c,
        s ∈ states /\ cursor s = Some c /\ clientId s <> my
        /\ d = decoration_of s c.
Proof.
  rewrite remote_decorations_shown, list_elem_of_omap. split.
  - intros (s & Hs & Hd). apply shown_Some in Hd as (c & Hc & Hne & ->).
    now exists s, c.
  - intros (s & c & Hs & Hc & Hne & ->). exists s. split; [assumption|].
    apply shown_Some. now exists c.
Qed.

(** The class name of a decoration names the client it is for. *)
Lemma inlineClassName_inj s c s' c' :
  inlineClassName (decoration_of s c)
  = inlineClassName (decoration_of s' c') ->
  clientId s = clientId s'.
Proof.
  unfold decoration_of; cbn [inlineClassName].
  intros H. apply app_inv_head in H. now apply of_number_inj.
Qed.

(** Nothing happens while the provider, the editor or Monaco is
    missing. *)
Lemma updateRemoteCursorDecorations_not_ready states w :
  providerRef w = None \/ editor w = None \/ monaco w = false ->
  updateRemoteCursorDecorations states w = (Ok tt, w).
Proof.
  unfold updateRemoteCursorDecorations, bind, get.
  intros [-> | [-> | ->]]; repeat case_match; reflexivity.
Qed.

Lemma updateRemoteCursorDecorations_run states w p e :
  providerRef w = Some p -> editor w = Some e -> monaco w = true ->
  updateRemoteCursorDecorations states w
  = (Ok tt,
     let decs := remote_decorations (clientID_of w p) states in
     let r := deltaDecorations (decorationsRef w) decs e in
     set_decorationsRef (fst r)
       (set_editor (Some (snd r))
          (log (DeltaDecorations (decorationsRef w) decs) w))).
Proof.
  intros Hp He Hm.
  unfold updateRemoteCursorDecorations, bind, get, emit, modify.
  now rewrite Hp, He, Hm.
Qed.

Lemma filter_all_removed (old : list nat) (l : list (nat * Decoration)) :
  List.Forall (fun d => fst d ∈ old) l ->
  List.filter (fun d => negb (bool_decide (fst d ∈ old))) l = [].
Proof.
  induction 1 as [|d l Hd _ IH]; cbn [List.filter]; [reflexivity|].
  now rewrite bool_decide_eq_true_2 by assumption.
Qed.

(** When all its decorations are the hook's, Monaco's
    [deltaDecorations], given the hook's ids, leaves exactly the new
    decorations. *)
Lemma deltaDecorations_replaces old new e :
  List.map fst (ed_decorations e) = old ->
  List.map snd (ed_decorations (snd (deltaDecorations old new e))) = new
  /\ List.map fst (ed_decorations (snd (deltaDecorations old new e)))
     = fst (deltaDecorations old new e).
Proof.
  intros Hown. unfold deltaDecorations; cbn [fst snd ed_decorations].
  assert (Hnone :
    List.filter (fun d => negb (bool_decide (fst d ∈ old)))
                (ed_decorations e) = []).
  { apply filter_all_removed. subst old.
    apply List.Forall_forall. intros d Hd.
    apply list_elem_of_In. now apply List.in_map. }
  rewrite Hnone. cbn [app].
  assert (Hlen : length (seq (ed_fresh e) (length new)) = length new)
    by apply length_seq.
  revert Hlen. generalize (seq (ed_fresh e) (length new)). intros ids.
  revert ids. induction new as [|d new IH]; intros [|i ids] Hlen;
    try discriminate Hlen; [split; reflexivity|].
  cbn [combine List.map fst snd]. injection Hlen as Hlen.
  destruct (IH ids Hlen) as [-> ->]. split; reflexivity.
Qed.

(** C9.  With provider, editor and Monaco in place, the decorations
    handed to [deltaDecorations] are those of the states that have a
    cursor and are not the local client's: none carries the local
    client's class name.  The call gets the ids the hook holds from
    its previous update as the ones to remove, and the hook then holds
    the ids returned; so when the editor's decorations are the hook's,
    afterwards they are exactly the new ones. *)
Theorem remote_cursor_decorations states w p e :
  providerRef w = Some p -> editor w = Some e -> monaco w = true ->
  let myClientId := clientID_of w p in
  let decs := remote_decorations myClientId states in
  let w' := exec (updateRemoteCursorDecorations states) w in
  (forall d,
      d ∈ decs
      <-> exists s c,
            s ∈ states /\ cursor s = Some c /\ clientId s <> myClientId
            /\ d = decoration_of s c)
  /\ (forall d,
         d ∈ decs ->
         inlineClassName d <> lit "remoteCursor_" ++ of_number myClientId)
  /\ trace w' = trace w ++ [DeltaDecorations (decorationsRef w) decs]
  /\ decorationsRef w' = fst (deltaDecorations (decorationsRef w) decs e)
  /\ editor w' = Some (snd (deltaDecorations (decorationsRef w) decs e))
  /\ (hook_owns w e ->
      exists e',
        editor w' = Some e' /\ List.map snd (ed_decorations e') = decs
        /\ hook_owns w' e').
Proof.
  intros Hp He Hm myClientId decs w'.
  subst w'. unfold exec.
  rewrite (updateRemoteCursorDecorations_run states w p e Hp He Hm).
  cbn [snd]. fold myClientId. fold decs. cbv zeta.
  split; [intros d; apply elem_of_remote_decorations|].
  split.
  { intros d Hd Hcls.
    apply elem_of_remote_decorations in Hd
      as (s & c & _ & _ & Hne & ->).
    unfold decoration_of in Hcls; cbn [inlineClassName] in Hcls.
    apply app_inv_head in Hcls. now apply of_number_inj in Hcls. }
  split; [reflexivity|]. split; [reflexivity|]. split; [reflexivity|].
  intros Hown. eexists. split; [reflexivity|].
  unfold hook_owns in *. cbn [decorationsRef set_decorationsRef].
  now apply deltaDecorations_replaces.
Qed.

(** The local client and the client without cursor get no decoration;
    the remote client with a cursor gets one. *)
Lemma remote_cursor_decorations_witness :
  trace (exec (updateRemoteCursorDecorations states0) active)
  = trace active
    ++ [DeltaDecorations []
          [ {| range := (3, 1, 3, 1)%Z;
               hoverMessage := lit "**ann**";
               inlineClassName := lit "remoteCursor_8" |} ]].
Proof.
  destruct (remote_cursor_decorations states0 active 0 editor0)
    as (_ & _ & H & _); [reflexivity | reflexivity | reflexivity |].
  exact H.
Defined.

(** Two updates in a row: the decoration of the first is gone after the
    second. *)
Example decorations_do_not_accumulate :
  let w1 := exec (updateRemoteCursorDecorations states0) active in
  let w2 := exec (updateRemoteCursorDecorations (tail states0)) w1 in
  (ed_decorations <$> editor w1)
  = Some [(0, {| range := (3, 1, 3, 1)%Z; hoverMessage := lit "**ann**";
                 inlineClassName := lit "remoteCursor_8" |})]
  /\ decorationsRef w1 = [0]
  /\ (ed_decorations <$> editor w2)
     = Some [(1, {| range := (3, 1, 3, 1)%Z; hoverMessage := lit "**ann**";
                    inlineClassName := lit "remoteCursor_8" |})]
  /\ decorationsRef w2 = [1].
Proof. vm_compute. repeat split. Qed.

End DecorationProps.
